(** * script.py: a HOOMD-blue (v2 scripting API) Lennard-Jones run

    The repository is one Python script.  It imports the [hoomd] package
    and issues a straight line of calls into it: a simulation context, a
    simple cubic lattice, a Lennard-Jones pair potential, a Langevin
    integrator, two periodic writers, and a run of a fixed number of steps.

    The script is embedded as a computation over the requests it sends to
    the Python runtime and the [hoomd] package (imports and calls).  The
    package itself is not part of the repository: it is a parameter, an
    arbitrary function from a request and a state to an outcome (a returned
    value or a raised exception) and a new state.  What is proved is proved
    for every such engine. *)

From Stdlib Require Import ZArith QArith Qabs Bool List String Lia.
From Stdlib Require Import Floats.SpecFloat.
Import ListNotations.
Local Open Scope string_scope.
Local Open Scope list_scope.
Local Open Scope Z_scope.

(** ** Python floats

    A Python [float] is an IEEE 754 binary64 number; a float literal of the
    source denotes the binary64 number nearest to the decimal it writes
    (ties to even).  Floats are kept as the Standard Library's
    [spec_float]: sign, mantissa and binary exponent. *)

Module PyFloat.

(** Precision and exponent range of binary64 (as for [SpecFloat.bounded]). *)
Definition prec : Z := 53.
Definition emax : Z := 1024.
(** Least and greatest exponent of a mantissa of [prec] bits. *)
Definition emin_m : Z := 3 - emax - prec.
Definition emax_m : Z := emax - prec.

(** Nearest integer to [n / d] for [0 <= n] and [0 < d], ties to even. *)
Definition round_half_even (n d : Z) : Z :=
  let q := n / d in
  let r := n mod d in
  match 2 * r ?= d with
  | Lt => q
  | Gt => q + 1
  | Eq => if Z.even q then q else q + 1
  end.

(** [n / (d * 2^e)] as a fraction of integers. *)
Definition scaled (n d e : Z) : Z * Z :=
  if 0 <=? e then (n, d * 2 ^ e) else (n * 2 ^ (- e), d).

(** The binary64 number nearest to the positive rational [n / d]. *)
Definition of_pos_ratio (s : bool) (n d : positive) : spec_float :=
  let e0 := Z.log2 (Zpos n) - Z.log2 (Zpos d) - (prec - 1) in
  let '(n0, d0) := scaled (Zpos n) (Zpos d) e0 in
  let e1 := if n0 <? 2 ^ (prec - 1) * d0 then e0 - 1 else e0 in
  let e2 := Z.max e1 emin_m in
  let '(n2, d2) := scaled (Zpos n) (Zpos d) e2 in
  let m := round_half_even n2 d2 in
  let '(m', e') := if m =? 2 ^ prec then (2 ^ (prec - 1), e2 + 1) else (m, e2) in
  match m' with
  | Zpos p => if emax_m <? e' then S754_infinity s else S754_finite s p e'
  | _ => S754_zero s
  end.

(** The value of a float literal: the decimal, correctly rounded. *)
Definition of_Q (q : Q) : spec_float :=
  match Qnum q with
  | Z0 => S754_zero false
  | Zpos n => of_pos_ratio false n (Qden q)
  | Zneg n => of_pos_ratio true n (Qden q)
  end.

(** The real number a float stands for (none for infinities and NaN). *)
Definition to_Q (f : spec_float) : option Q :=
  match f with
  | S754_zero _ => Some (0 # 1)
  | S754_finite s m e =>
      Some (inject_Z (if s then Zneg m else Zpos m) * Qpower (2 # 1) e)%Q
  | _ => None
  end.

(** The integer a float is exactly equal to, if it is one
    (Python's [float.is_integer] together with [int]). *)
Definition to_Z_exact (f : spec_float) : option Z :=
  match f with
  | S754_zero _ => Some 0
  | S754_finite s m e =>
      let sm := if s then Zneg m else Zpos m in
      if 0 <=? e then Some (sm * 2 ^ e)
      else if Zpos m mod 2 ^ (- e) =? 0 then Some (sm / 2 ^ (- e))
      else None
  | _ => None
  end.

(** Half a unit in the last place of a finite float. *)
Definition half_ulp (f : spec_float) : option Q :=
  match f with
  | S754_finite _ _ e => Some (Qpower (2 # 1) (e - 1))
  | _ => None
  end.

End PyFloat.

(** ** Python values and requests *)

(** An object of the engine is known to the script by its identity only. *)
Definition handle : Type := nat.

#[warnings="-register-all"]
Inductive value : Type :=
| VNone
| VBool (b : bool)
| VInt (z : Z)
| VFloat (f : spec_float)
| VStr (s : string)
| VList (l : list value)
| VObj (h : handle).

(** A float literal as the source writes it. *)
Definition VLit (q : Q) : value := VFloat (PyFloat.of_Q q).
Arguments VLit q%_Q.

(** An uncaught Python exception: its class and its message. *)
Record exn : Type := Exn { exn_class : string; exn_msg : string }.

(** What a dotted name starts from: a module bound by [import], or a value
    held in a variable of the script. *)
Inductive receiver : Type :=
| OnModule (name : string)
| OnValue (v : value).

(** What the script asks of the outside.  [Call r path args kwargs] is the
    call expression [r.p1.....pn(args, kwargs)]: the attributes of [path]
    are looked up from [r] and the result is called, with the positional
    arguments [args] and the keyword arguments [kwargs] in the order
    they are written.  The lookup and the call are one request; a failure
    of either is a failure of the request.  (Python looks the callee up
    before it evaluates the arguments.  The one argument of the script
    that is itself a call, [hoomd.lattice.sc(a=2.0)] on line 6, is a
    request of its own, sent before the request for the call it is an
    argument of.  So a trace in which the [create_lattice] request
    raises, after a returned [sc] request, stands for two runs of the
    source: one in which the call raised, and one in which the lookup of
    [hoomd.init.create_lattice] raised and [sc] was never called.  What
    is proved of runs that fail is stated so that it holds of both: it
    speaks of the lattice request where that request returned.) *)
Inductive request : Type :=
| Import (module : string)
| Call (recv : receiver) (path : list string)
       (args : list value) (kwargs : list (string * value)).

Inductive outcome : Type :=
| Returns (v : value)
| Raises (e : exn).

(** One request together with what came back. *)
Definition event : Type := request * outcome.

(** ** Computations

    [Req] sends a request, [Bind] sequences, [Raise] and [Try] are Python's
    [raise] and [try ... except].  The script uses [Req] and [Bind] only;
    [Raise] and [Try] are there so that "the script handles no exception"
    is a property of the script and not of the language. *)
Inductive py : Type :=
| Ret (v : value)
| Raise (e : exn)
| Req (r : request)
| Bind (p : py) (k : value -> py)
| Try (p : py) (handler : exn -> py).

Declare Scope py_scope.
Delimit Scope py_scope with py.
Bind Scope py_scope with py.
Notation "x <- c ;; k" := (Bind c (fun x => k))
  (at level 100, c at next level, right associativity) : py_scope.
Notation "c ;; k" := (Bind c (fun _ => k))
  (at level 100, right associativity) : py_scope.

Definition import (module : string) : py := Req (Import module).
Definition call (recv : receiver) (path : list string)
    (args : list value) (kwargs : list (string * value)) : py :=
  Req (Call recv path args kwargs).

(** The name [hoomd], bound by both import statements. *)
Definition hoomd : receiver := OnModule "hoomd".

(** ** The script (src/script.py) *)
Definition script : py :=
 (import "hoomd" ;;
  import "hoomd.md" ;;
  (* initialize *)
  call hoomd ["context"; "initialize"] [] [] ;;
  unitcell <- call hoomd ["lattice"; "sc"] [] [("a", VLit 2.0)] ;;
  call hoomd ["init"; "create_lattice"] []
       [("unitcell", unitcell); ("n", VInt 5)] ;;
  (* specify potential *)
  nl <- call hoomd ["md"; "nlist"; "cell"] [] [] ;;
  lj <- call hoomd ["md"; "pair"; "lj"] [] [("r_cut", VLit 2.5); ("nlist", nl)] ;;
  call (OnValue lj) ["pair_coeff"; "set"] [VStr "A"; VStr "A"]
       [("epsilon", VLit 1.0); ("sigma", VLit 1.0)] ;;
  (* define integrator *)
  all <- call hoomd ["group"; "all"] [] [] ;;
  call hoomd ["md"; "integrate"; "mode_standard"] [] [("dt", VLit 0.005)] ;;
  call hoomd ["md"; "integrate"; "langevin"] []
       [("group", all); ("kT", VLit 0.2); ("seed", VInt 42)] ;;
  (* write output *)
  call hoomd ["analyze"; "log"] []
       [("filename", VStr "log-output.log");
        ("quantities", VList [VStr "potential_energy"]);
        ("period", VInt 100); ("overwrite", VBool true)] ;;
  call hoomd ["dump"; "gsd"] [VStr "trajectory.gsd"]
       [("period", VLit 2e3); ("group", all); ("overwrite", VBool true)] ;;
  (* run simulation *)
  call hoomd ["run"] [VLit 1e4] [])%py.

(** ** Running a computation against an engine *)
Section Exec.

Variable St : Type.
(** The engine: the Python runtime's import machinery and the [hoomd]
    package.  Nothing is assumed of it. *)
Variable engine : request -> St -> outcome * St.

(** The outcome, the final state and the events in the order they
    happened.  A [Raises] at the top is an exception nobody caught: it
    reaches the process boundary. *)
Fixpoint exec (p : py) (s : St) : outcome * St * list event :=
  match p with
  | Ret v => (Returns v, s, [])
  | Raise e => (Raises e, s, [])
  | Req r => let '(o, s') := engine r s in (o, s', [(r, o)])
  | Bind p k =>
      match exec p s with
      | (Returns v, s', t) =>
          let '(o, s'', t') := exec (k v) s' in (o, s'', t ++ t')
      | (Raises e, s', t) => (Raises e, s', t)
      end
  | Try p handler =>
      match exec p s with
      | (Returns v, s', t) => (Returns v, s', t)
      | (Raises e, s', t) =>
          let '(o, s'', t') := exec (handler e) s' in (o, s'', t ++ t')
      end
  end.

Definition result_of (p : py) (s : St) : outcome := fst (fst (exec p s)).
Definition trace_of (p : py) (s : St) : list event := snd (exec p s).

End Exec.

Arguments exec {St} engine p s.
Arguments result_of {St} engine p s.
Arguments trace_of {St} engine p s.

(** An engine that never fails and answers the [n]-th request with a
    fresh object [VObj n]. *)
Definition fresh_engine (r : request) (n : nat) : outcome * nat :=
  (Returns (VObj n), S n).

(** An engine without the package: the first import fails. *)
Definition no_hoomd_engine (r : request) (n : nat) : outcome * nat :=
  match r with
  | Import _ => (Raises (Exn "ModuleNotFoundError" "No module named 'hoomd'"), n)
  | Call _ _ _ _ => (Returns VNone, S n)
  end.

(** An engine that rejects one call, by its dotted path, and answers every
    other request with a fresh object. *)
Definition rejecting_engine (path : list string) (e : exn)
    (r : request) (n : nat) : outcome * nat :=
  match r with
  | Call _ p _ _ =>
      if list_eq_dec string_dec p path then (Raises e, n)
      else (Returns (VObj n), S n)
  | Import _ => (Returns (VObj n), S n)
  end.

(** ** Reading a trace *)

Definition requests (t : list event) : list request := map fst t.

Definition returned (ev : event) : bool :=
  match snd ev with Returns _ => true | Raises _ => false end.

Definition completed (o : outcome) : bool :=
  match o with Returns _ => true | Raises _ => false end.

Definition path_eqb (p q : list string) : bool :=
  if list_eq_dec string_dec p q then true else false.

(** Is [r] a call of the function [hoomd.p1.....pn]? *)
Definition hoomd_call (path : list string) (r : request) : bool :=
  match r with
  | Call (OnModule m) p _ _ => String.eqb m "hoomd" && path_eqb p path
  | _ => false
  end.

Definition is_call (r : request) : bool :=
  match r with Call _ _ _ _ => true | Import _ => false end.

(** Is [r] the method call [v.p1.....pn(...)] on some value [v]? *)
Definition method_call (path : list string) (r : request) : bool :=
  match r with
  | Call (OnValue _) p _ _ => path_eqb p path
  | _ => false
  end.

(** Is [r] a call on a value the script holds (not on a module)? *)
Definition on_value (r : request) : bool :=
  match r with Call (OnValue _) _ _ _ => true | _ => false end.

Definition calls (t : list event) : list request :=
  filter is_call (requests t).

Definition calls_to (path : list string) (t : list event) : list request :=
  filter (hoomd_call path) (requests t).

Fixpoint lookup (name : string) (kw : list (string * value)) : option value :=
  match kw with
  | [] => None
  | (k, v) :: kw' => if String.eqb k name then Some v else lookup name kw'
  end.

Definition kwarg (name : string) (r : request) : option value :=
  match r with
  | Call _ _ _ kw => lookup name kw
  | Import _ => None
  end.

Definition posarg (i : nat) (r : request) : option value :=
  match r with
  | Call _ _ args _ => nth_error args i
  | Import _ => None
  end.

(** A number of steps: a Python [int], or a [float] that is exactly an
    integer. *)
Definition as_steps (v : value) : option Z :=
  match v with
  | VInt z => Some z
  | VFloat f => PyFloat.to_Z_exact f
  | _ => None
  end.

(** The number of steps an optional argument stands for. *)
Definition steps_of (v : option value) : option Z :=
  match v with Some x => as_steps x | None => None end.

(** [f] is finite and no further than half a unit in its last place from
    the decimal [q]. *)
Definition nearest_to (q : Q) (v : value) : Prop :=
  match v with
  | VFloat f =>
      match PyFloat.to_Q f, PyFloat.half_ulp f with
      | Some x, Some u => (Qabs (x - q) <= u)%Q
      | _, _ => False
      end
  | _ => False
  end.

(** Step [n] is one at which a writer of period [p] samples. *)
Definition sampling_boundary (n p : Z) : Prop := n mod p = 0.

(** ** The requests of the script, named *)

Definition log_request : request :=
  Call hoomd ["analyze"; "log"] []
    [("filename", VStr "log-output.log");
     ("quantities", VList [VStr "potential_energy"]);
     ("period", VInt 100); ("overwrite", VBool true)].

Definition group_all_request : request := Call hoomd ["group"; "all"] [] [].

Definition gsd_request (group : value) : request :=
  Call hoomd ["dump"; "gsd"] [VStr "trajectory.gsd"]
    [("period", VLit 2e3); ("group", group); ("overwrite", VBool true)].

Definition run_request : request := Call hoomd ["run"] [VLit 1e4] [].

Definition mode_request : request :=
  Call hoomd ["md"; "integrate"; "mode_standard"] [] [("dt", VLit 0.005)].

Definition langevin_request (group : value) : request :=
  Call hoomd ["md"; "integrate"; "langevin"] []
    [("group", group); ("kT", VLit 0.2); ("seed", VInt 42)].

Definition lj_request (nl : value) : request :=
  Call hoomd ["md"; "pair"; "lj"] [] [("r_cut", VLit 2.5); ("nlist", nl)].

Definition pair_coeff_request (lj : value) : request :=
  Call (OnValue lj) ["pair_coeff"; "set"] [VStr "A"; VStr "A"]
    [("epsilon", VLit 1.0); ("sigma", VLit 1.0)].

(** All fourteen requests of a run in which nothing fails, given the four
    answers the script keeps: the unit cell, the neighbour list, the pair
    potential and the group. *)
Definition requests_with (unitcell nl lj all : value) : list request :=
  [ Import "hoomd";
    Import "hoomd.md";
    Call hoomd ["context"; "initialize"] [] [];
    Call hoomd ["lattice"; "sc"] [] [("a", VLit 2.0)];
    Call hoomd ["init"; "create_lattice"] []
      [("unitcell", unitcell); ("n", VInt 5)];
    Call hoomd ["md"; "nlist"; "cell"] [] [];
    lj_request nl;
    pair_coeff_request lj;
    group_all_request;
    mode_request;
    langevin_request all;
    log_request;
    gsd_request all;
    run_request ].

(** ** Stages

    The six steps the specification names.  The source groups its
    statements under five comments: "initialize" covers the first two
    stages, the others one each. *)
Inductive stage : Type :=
| InitContext | BuildLattice | DefinePotential | DefineIntegrator
| DefineOutput | RunSimulation.

Definition stage_index (g : stage) : nat :=
  match g with
  | InitContext => 0 | BuildLattice => 1 | DefinePotential => 2
  | DefineIntegrator => 3 | DefineOutput => 4 | RunSimulation => 5
  end.

Definition stage_of (r : request) : option stage :=
  if hoomd_call ["context"; "initialize"] r then Some InitContext
  else if hoomd_call ["lattice"; "sc"] r
       || hoomd_call ["init"; "create_lattice"] r then Some BuildLattice
  else if hoomd_call ["md"; "nlist"; "cell"] r
       || hoomd_call ["md"; "pair"; "lj"] r
       || method_call ["pair_coeff"; "set"] r then Some DefinePotential
  else if hoomd_call ["group"; "all"] r
       || hoomd_call ["md"; "integrate"; "mode_standard"] r
       || hoomd_call ["md"; "integrate"; "langevin"] r then Some DefineIntegrator
  else if hoomd_call ["analyze"; "log"] r
       || hoomd_call ["dump"; "gsd"] r then Some DefineOutput
  else if hoomd_call ["run"] r then Some RunSimulation
  else None.

(** The stages a list of requests goes through, each listed once per
    consecutive run of requests of that stage. *)
Fixpoint stages (rs : list request) : list stage :=
  match rs with
  | [] => []
  | r :: rs' =>
      match stage_of r, stages rs' with
      | Some g, g' :: gs =>
          if Nat.eqb (stage_index g) (stage_index g') then g' :: gs
          else g :: g' :: gs
      | Some g, [] => [g]
      | None, gs => gs
      end
  end.

(** ** Handlers, files and addressees *)

(** No [try ... except] anywhere in a computation. *)
Inductive handler_free : py -> Prop :=
| hf_Ret v : handler_free (Ret v)
| hf_Raise e : handler_free (Raise e)
| hf_Req r : handler_free (Req r)
| hf_Bind p k :
    handler_free p -> (forall v, handler_free (k v)) ->
    handler_free (Bind p k).

(** A trace in which every request but the last has returned, and the
    last has the outcome [o]. *)
Definition ends_with (o : outcome) (t : list event) : Prop :=
  exists t0 r, t = t0 ++ [(r, o)] /\ forallb returned t0 = true.

(** What a trace of a handler-free computation looks like: every request
    returned, unless the last one raised the exception that is the
    outcome. *)
Definition trace_shape (o : outcome) (t : list event) : Prop :=
  match o with
  | Returns _ => forallb returned t = true
  | Raises e => forallb returned t = true \/ ends_with (Raises e) t
  end.

(** The file a request asks the engine to write: the [filename] of
    [hoomd.analyze.log], the first argument of [hoomd.dump.gsd]. *)
Definition requested_file (r : request) : option string :=
  if hoomd_call ["analyze"; "log"] r then
    match kwarg "filename" r with Some (VStr f) => Some f | _ => None end
  else if hoomd_call ["dump"; "gsd"] r then
    match posarg 0 r with Some (VStr f) => Some f | _ => None end
  else None.

Fixpoint requested_files (rs : list request) : list string :=
  match rs with
  | [] => []
  | r :: rs' =>
      match requested_file r with
      | Some f => f :: requested_files rs'
      | None => requested_files rs'
      end
  end.

(** A request that goes to the [hoomd] package: an import of it, a call
    of one of its functions, or a call on a value an earlier request
    returned. *)
Definition to_hoomd (seen : list event) (r : request) : Prop :=
  match r with
  | Import m => m = "hoomd" \/ m = "hoomd.md"
  | Call (OnModule m) _ _ _ => m = "hoomd"
  | Call (OnValue v) _ _ _ => exists r', In (r', Returns v) seen
  end.

Fixpoint only_hoomd (seen t : list event) : Prop :=
  match t with
  | [] => True
  | ev :: t' => to_hoomd seen (fst ev) /\ only_hoomd (seen ++ [ev]) t'
  end.

(** The last event of a trace. *)
Definition final_event (t : list event) : option event :=
  last (map Some t) None.

(** Every request but the last one has returned: the script issues a
    request only once all the earlier ones are back. *)
Definition sequential (t : list event) : bool :=
  forallb returned (removelast t).

(** The claim that a handle is never used but as an argument: no request
    is a call on a value. *)
Definition handles_only_arguments (t : list event) : bool :=
  forallb (fun r => negb (on_value r)) (requests t).

(** The claim that the script makes five invocations, through the six
    stages in their order. *)
Definition five_invocations_in_order (t : list event) : Prop :=
  List.length (calls t) = 5%nat /\
  stages (requests t) =
    [InitContext; BuildLattice; DefinePotential; DefineIntegrator;
     DefineOutput; RunSimulation].

(** ** More requests of the script, named *)

Definition init_request : request := Call hoomd ["context"; "initialize"] [] [].

Definition sc_request : request :=
  Call hoomd ["lattice"; "sc"] [] [("a", VLit 2.0)].

Definition lattice_request (unitcell : value) : request :=
  Call hoomd ["init"; "create_lattice"] []
    [("unitcell", unitcell); ("n", VInt 5)].

Definition nlist_request : request := Call hoomd ["md"; "nlist"; "cell"] [] [].

(** [v] is a finite float whose value is the rational [q], with no
    rounding. *)
Definition exactly (q : Q) (v : option value) : Prop :=
  match v with
  | Some (VFloat f) =>
      match PyFloat.to_Q f with
      | Some x => (x == q)%Q
      | None => False
      end
  | _ => False
  end.

(** ** The script's requests, read back from a trace *)

(** The value the engine returned to the first request that satisfies
    [is_it] and returned; [VNone] when no such request returned. *)
Definition answer_to (is_it : request -> bool) (t : list event) : value :=
  match find (fun ev => is_it (fst ev) && returned ev) t with
  | Some (_, Returns v) => v
  | _ => VNone
  end.

(** The fourteen requests of the script at the answers of a trace: the
    four slots are what the engine returned, in that trace, to
    [hoomd.lattice.sc], [hoomd.md.nlist.cell], [hoomd.md.pair.lj] and
    [hoomd.group.all]. *)
Definition script_requests (t : list event) : list request :=
  requests_with (answer_to (hoomd_call ["lattice"; "sc"]) t)
                (answer_to (hoomd_call ["md"; "nlist"; "cell"]) t)
                (answer_to (hoomd_call ["md"; "pair"; "lj"]) t)
                (answer_to (hoomd_call ["group"; "all"]) t).

(** The requests of a trace that returned, in order. *)
Definition returned_requests (t : list event) : list request :=
  map fst (filter returned t).

(** The eleven functions of the package that the script calls. *)
Definition hoomd_functions : list (list string) :=
  [ ["context"; "initialize"]; ["lattice"; "sc"]; ["init"; "create_lattice"];
    ["md"; "nlist"; "cell"]; ["md"; "pair"; "lj"]; ["group"; "all"];
    ["md"; "integrate"; "mode_standard"]; ["md"; "integrate"; "langevin"];
    ["analyze"; "log"]; ["dump"; "gsd"]; ["run"] ].

(** What a request of the script may address: one of the two imports,
    one of the eleven functions, or the method [pair_coeff.set]. *)
Definition known_callee (r : request) : bool :=
  match r with
  | Import m => String.eqb m "hoomd" || String.eqb m "hoomd.md"
  | Call (OnModule m) p _ _ =>
      String.eqb m "hoomd" && existsb (path_eqb p) hoomd_functions
  | Call (OnValue _) p _ _ => path_eqb p ["pair_coeff"; "set"]
  end.

(** * Proofs *)

(** ** Float literals *)

(** [round_half_even] is a nearest integer: twice the distance to the
    quotient is at most the divisor. *)
Lemma round_half_even_nearest (n d : Z) :
  0 < d ->
  Z.abs (2 * (n - d * PyFloat.round_half_even n d)) <= d.
Proof.
  intros Hd. unfold PyFloat.round_half_even.
  pose proof (Z.div_mod n d ltac:(lia)) as Hdm.
  pose proof (Z.mod_pos_bound n d Hd) as Hr.
  destruct (Z.compare_spec (2 * (n mod d)) d) as [Heq | Hlt | Hgt].
  - destruct (Z.even (n / d)); lia.
  - lia.
  - lia.
Qed.

(** On an exact tie the even neighbour is taken. *)
Lemma round_half_even_tie (n d : Z) :
  0 < d -> 2 * (n mod d) = d ->
  Z.even (PyFloat.round_half_even n d) = true.
Proof.
  intros Hd Htie. unfold PyFloat.round_half_even.
  rewrite Htie, Z.compare_refl.
  destruct (Z.even (n / d)) eqn:He; [exact He |].
  rewrite Z.even_add, He. reflexivity.
Qed.

(** Dividing by one rounds nothing. *)
Lemma round_half_even_exact (n : Z) : PyFloat.round_half_even n 1 = n.
Proof.
  unfold PyFloat.round_half_even.
  rewrite Z.mod_1_r, Z.div_1_r. reflexivity.
Qed.

(** A literal that writes a positive integer below 2^53, as [2e3] and
    [1e4] do, is that integer exactly. *)
Lemma of_Q_integer_exact (z : positive) :
  Zpos z < 2 ^ 53 ->
  PyFloat.to_Z_exact (PyFloat.of_Q (Zpos z # 1)) = Some (Zpos z).
Proof.
  intros Hlt.
  pose proof (Z.log2_spec (Zpos z) ltac:(lia)) as [Hlo Hhi].
  assert (Hl : 0 <= Z.log2 (Zpos z) < 53).
  { split; [apply Z.log2_nonneg |]. apply Z.log2_lt_pow2; lia. }
  unfold PyFloat.of_Q, PyFloat.of_pos_ratio. cbn [Qnum Qden].
  change (Z.log2 1) with 0. change (PyFloat.prec - 1) with 52.
  change PyFloat.prec with 53. change PyFloat.emin_m with (-1074).
  change PyFloat.emax_m with 971.
  set (l := Z.log2 (Zpos z)) in *.
  set (k := 52 - l).
  assert (Hk : 0 <= k <= 52) by lia.
  replace (l - 0 - 52) with (- k) by lia.
  assert (Hscaled : PyFloat.scaled (Zpos z) 1 (- k) = (Zpos z * 2 ^ k, 1)).
  { unfold PyFloat.scaled. destruct (Z.leb_spec 0 (- k)).
    - replace k with 0 by lia. change (2 ^ (- 0)) with 1. change (2 ^ 0) with 1.
      f_equal; lia.
    - rewrite Z.opp_involutive. reflexivity. }
  assert (Hpow : 2 ^ 52 <= Zpos z * 2 ^ k < 2 ^ 53).
  { assert (H52 : 2 ^ 52 = 2 ^ l * 2 ^ k).
    { rewrite <- Z.pow_add_r by lia. f_equal. lia. }
    assert (H53 : 2 ^ 53 = 2 ^ Z.succ l * 2 ^ k).
    { rewrite <- Z.pow_add_r by lia. f_equal. lia. }
    assert (0 < 2 ^ k) by (apply Z.pow_pos_nonneg; lia).
    rewrite H52, H53. split.
    - apply Z.mul_le_mono_nonneg_r; lia.
    - apply Z.mul_lt_mono_pos_r; lia. }
  rewrite Hscaled.
  destruct (Z.ltb_spec (Zpos z * 2 ^ k) (2 ^ 52 * 1)) as [Hbad | _]; [lia |].
  rewrite Z.max_l by lia. rewrite Hscaled.
  rewrite round_half_even_exact.
  destruct (Z.eqb_spec (Zpos z * 2 ^ k) (2 ^ 53)) as [Hbad | _]; [lia |].
  destruct (Zpos z * 2 ^ k) as [| p | p] eqn:Hp; [lia | | lia].
  destruct (Z.ltb_spec 971 (- k)) as [Hbad | _]; [lia |].
  cbn [PyFloat.to_Z_exact].
  destruct (Z.leb_spec 0 (- k)).
  - assert (k = 0) as Hk0 by lia. rewrite Hk0 in *.
    change (2 ^ (-0)) with 1. change (2 ^ 0) with 1 in Hp. f_equal. lia.
  - rewrite Z.opp_involutive, <- Hp.
    assert (0 < 2 ^ k) by (apply Z.pow_pos_nonneg; lia).
    rewrite Z_mod_mult. cbn [Z.eqb]. rewrite Z_div_mult by lia. reflexivity.
Qed.

(** The seven float literals of the script, as sign, mantissa and
    exponent (the bit patterns 0x4000000000000000, 0x4004000000000000,
    0x3FF0000000000000, 0x3F747AE147AE147B, 0x3FC999999999999A,
    0x409F400000000000 and 0x40C3880000000000). *)
Lemma literal_values :
  map PyFloat.of_Q [2.0; 2.5; 1.0; 0.005; 0.2; 2e3; 1e4]%Q =
  [ S754_finite false 4503599627370496 (-51);
    S754_finite false 5629499534213120 (-51);
    S754_finite false 4503599627370496 (-52);
    S754_finite false 5764607523034235 (-60);
    S754_finite false 7205759403792794 (-55);
    S754_finite false 8796093022208000 (-42);
    S754_finite false 5497558138880000 (-39) ].
Proof. vm_compute. reflexivity. Qed.

(** Each is within half a unit in the last place of the decimal written. *)
Lemma literals_nearest :
  forall q, In q [2.0; 2.5; 1.0; 0.005; 0.2; 2e3; 1e4]%Q ->
  nearest_to q (VLit q).
Proof.
  intros q Hq. simpl in Hq.
  repeat (destruct Hq as [<- | Hq]; [vm_compute; discriminate |]).
  contradiction.
Qed.

(** The seven literals of the script are proper binary64 numbers. *)
Lemma literals_bounded :
  forall q, In q [2.0; 2.5; 1.0; 0.005; 0.2; 2e3; 1e4]%Q ->
  match PyFloat.of_Q q with
  | S754_finite _ m e => bounded PyFloat.prec PyFloat.emax m e = true
  | _ => False
  end.
Proof.
  intros q Hq. simpl in Hq.
  repeat (destruct Hq as [<- | Hq]; [vm_compute; reflexivity |]).
  contradiction.
Qed.

(** ** Computations without handlers *)

Section HandlerFree.

Variable St : Type.
Variable engine : request -> St -> outcome * St.

Lemma handler_free_shape (p : py) :
  handler_free p ->
  forall s, trace_shape (result_of engine p s) (trace_of engine p s).
Proof.
  unfold result_of, trace_of.
  induction 1 as [v | e | r | p k Hp IHp Hk IHk]; intros s; cbn [exec].
  - reflexivity.
  - left. reflexivity.
  - destruct (engine r s) as [[v | e] s']; cbn.
    + reflexivity.
    + right. exists [], r. split; reflexivity.
  - specialize (IHp s).
    destruct (exec engine p s) as [[[v | e] s'] t]; cbn in IHp |- *.
    + specialize (IHk v s').
      destruct (exec engine (k v) s') as [[[v' | e'] s''] t']; cbn in IHk |- *.
      * rewrite forallb_app, IHp, IHk. reflexivity.
      * destruct IHk as [Hall | (t0 & r & -> & Hall)].
        -- left. rewrite forallb_app, IHp, Hall. reflexivity.
        -- right. exists (t ++ t0), r. split.
           ++ apply app_assoc.
           ++ rewrite forallb_app, IHp, Hall. reflexivity.
    + exact IHp.
Qed.

(** A request that raised is the last event, and its exception is the
    outcome of the whole computation. *)
Lemma handler_free_propagates (p : py) (s : St) (r : request) (e : exn) :
  handler_free p ->
  In (r, Raises e) (trace_of engine p s) ->
  result_of engine p s = Raises e /\ ends_with (Raises e) (trace_of engine p s).
Proof.
  intros Hp Hin. pose proof (handler_free_shape p Hp s) as Hshape.
  assert (Hno : forall t, forallb returned t = true -> ~ In (r, Raises e) t).
  { intros t Hall Hin'. rewrite forallb_forall in Hall.
    specialize (Hall _ Hin'). discriminate Hall. }
  destruct (result_of engine p s) as [v | e']; cbn in Hshape.
  - exfalso. exact (Hno _ Hshape Hin).
  - destruct Hshape as [Hall | (t0 & r' & Heq & Hall)].
    + exfalso. exact (Hno _ Hall Hin).
    + rewrite Heq in Hin. apply in_app_or in Hin.
      destruct Hin as [Hin | [Hin | []]].
      * exfalso. exact (Hno _ Hall Hin).
      * injection Hin as -> ->. split; [reflexivity |].
        exists t0, r. split; assumption.
Qed.

End HandlerFree.

Lemma script_handler_free : handler_free script.
Proof.
  unfold script, import, call.
  repeat (apply hf_Bind; [apply hf_Req | intros ?]).
  apply hf_Req.
Qed.

(** A handler does change the outcome: the same failing import, caught. *)
Example caught_import_returns :
  result_of no_hoomd_engine (Try (import "hoomd") (fun _ => Ret VNone)) O
  = Returns VNone.
Proof. reflexivity. Qed.

(** ** Runs of the script *)

(** Every run of the script is one of fifteen: the engine fails at one of
    the fourteen requests, or at none.  [run_script] walks them. *)
Ltac ask_engine engine :=
  match goal with
  | |- context [engine ?r ?s] =>
      let v := fresh "v" in
      let e := fresh "e" in
      let s' := fresh "s" in
      destruct (engine r s) as [[v | e] s']; cbn [exec fst snd app]
  end.

Ltac run_script engine :=
  unfold trace_of, result_of, script, import, call; cbn [exec fst snd app];
  repeat ask_engine engine.

(** In a run that completes, only the completed case is left. *)
Ltac run_completed engine :=
  run_script engine;
  let H := fresh "Hdone" in
  intros H; try discriminate H; clear H.

(** [In x l] for a list that is written out. *)
Ltac in_list := cbn [In]; repeat first [left; reflexivity | right].

Section Runs.

Variable St : Type.
Variable engine : request -> St -> outcome * St.
Variable s : St.

(** The requests of a completed run are the fourteen of
    [requests_with], at the four answers the script kept. *)
Lemma completed_requests :
  completed (result_of engine script s) = true ->
  exists unitcell nl lj all,
    let t := trace_of engine script s in
    In (Call hoomd ["lattice"; "sc"] [] [("a", VLit 2.0)], Returns unitcell) t /\
    In (Call hoomd ["md"; "nlist"; "cell"] [] [], Returns nl) t /\
    In (lj_request nl, Returns lj) t /\
    In (group_all_request, Returns all) t /\
    requests t = requests_with unitcell nl lj all.
Proof.
  run_completed engine.
  do 4 eexists. cbn zeta.
  repeat apply conj; [in_list .. | reflexivity].
Qed.

(** The script itself raises nothing: when it fails, a request did. *)
Lemma failure_is_a_request (e : exn) :
  result_of engine script s = Raises e ->
  exists r, In (r, Raises e) (trace_of engine script s).
Proof.
  run_script engine; intros H; try discriminate H;
    injection H as ->; eexists; in_list.
Qed.

(** No stage is gone back to, whenever the run stops. *)
Lemma at_most_one_each (path : list string) :
  In path [["analyze"; "log"]; ["dump"; "gsd"]; ["run"]; ["group"; "all"];
           ["md"; "integrate"; "mode_standard"];
           ["md"; "integrate"; "langevin"]] ->
  (List.length (calls_to path (trace_of engine script s)) <= 1)%nat.
Proof.
  intros Hp. cbn [In] in Hp.
  repeat (destruct Hp as [<- | Hp]; [run_script engine; cbn; lia |]).
  contradiction.
Qed.

End Runs.

(** * The claims *)





(** C3.  The script sends its requests one after the other, each only
    once the earlier ones have returned; its outcome is the outcome of
    its last request; it completes exactly when its last request is the
    call [hoomd.run(1e4)] and that call has returned, so nothing follows
    the run; the run is asked for at most once, and for exactly 10^4
    steps. *)
Theorem run_is_the_final_statement (St : Type)
    (engine : request -> St -> outcome * St) (s : St) :
  sequential (trace_of engine script s) = true /\
  option_map snd (final_event (trace_of engine script s))
    = Some (result_of engine script s) /\
  (forall v, result_of engine script s = Returns v <->
             final_event (trace_of engine script s)
               = Some (run_request, Returns v)) /\
  (forall r, In r (calls_to ["run"] (trace_of engine script s)) ->
             r = run_request) /\
  (List.length (calls_to ["run"] (trace_of engine script s)) <= 1)%nat /\
  run_request = Call hoomd ["run"] [VLit 1e4] [] /\
  steps_of (posarg 0 run_request) = Some 10000.
Proof.
  run_script engine.
  all: split; [reflexivity |].
  all: split; [reflexivity |].
  all: split; [intros w; split; intros H; inversion H; reflexivity |].
  all: split; [cbn; intros r Hr; repeat destruct Hr as [<- | Hr];
               solve [reflexivity | contradiction] |].
  all: split; [cbn; lia |].
  all: split; reflexivity.
Qed.

Lemma run_is_the_final_statement_witness :
  result_of fresh_engine script O = Returns (VObj 13%nat) /\
  final_event (trace_of fresh_engine script O)
    = Some (run_request, Returns (VObj 13%nat)).
Proof.
  split; [reflexivity |].
  apply (run_is_the_final_statement nat fresh_engine O). reflexivity.
Defined.




(** C5.  The script has no handler, and whatever request raises, be it
    an import or a call, that request is the last thing the script does
    and its exception is the outcome of the script: it reaches the
    process boundary as it was raised.  Conversely the script fails only
    when a request did. *)
Theorem exceptions_propagate_unhandled :
  handler_free script /\
  (forall (St : Type) (engine : request -> St -> outcome * St) (s : St)
          (r : request) (e : exn),
     In (r, Raises e) (trace_of engine script s) ->
     result_of engine script s = Raises e /\
     exists t0, trace_of engine script s = t0 ++ [(r, Raises e)] /\
                forallb returned t0 = true) /\
  (forall (St : Type) (engine : request -> St -> outcome * St) (s : St)
          (e : exn),
     result_of engine script s = Raises e ->
     exists r, In (r, Raises e) (trace_of engine script s)).
Proof.
  split; [exact script_handler_free |]. split.
  - intros St engine s r e Hin.
    destruct (handler_free_propagates St engine script s r e
                script_handler_free Hin) as [Hres (t0 & r' & Heq & Hall)].
    split; [exact Hres |].
    assert (r' = r) as ->.
    { rewrite Heq in Hin. apply in_app_or in Hin.
      destruct Hin as [Hin | [Hin | []]].
      - rewrite forallb_forall in Hall. specialize (Hall _ Hin).
        discriminate Hall.
      - injection Hin as ->. reflexivity. }
    exists t0. split; assumption.
  - intros St engine s e. apply failure_is_a_request.
Qed.

(** Three failures of the kinds the specification lists: the package is
    missing, the context cannot be initialized, a parameter is refused. *)
Lemma exceptions_propagate_unhandled_witness :
  result_of no_hoomd_engine script O
    = Raises (Exn "ModuleNotFoundError" "No module named 'hoomd'") /\
  result_of (rejecting_engine ["context"; "initialize"]
               (Exn "RuntimeError" "Error initializing context")) script O
    = Raises (Exn "RuntimeError" "Error initializing context") /\
  result_of (rejecting_engine ["md"; "integrate"; "langevin"]
               (Exn "ValueError" "kT must be positive")) script O
    = Raises (Exn "ValueError" "kT must be positive").
Proof.
  pose proof exceptions_propagate_unhandled as (_ & Hprop & _).
  repeat apply conj.
  - apply (Hprop nat no_hoomd_engine O (Import "hoomd")). in_list.
  - apply (Hprop nat _ O (Call hoomd ["context"; "initialize"] [] [])).
    vm_compute. in_list.
  - apply (Hprop nat _ O
             (langevin_request (VObj 8%nat))).
    vm_compute. in_list.
Defined.

(** C6, as the specification states it, fails: the handle that
    [hoomd.md.pair.lj] returned is not passed on as an argument, the
    script calls [pair_coeff.set] on it. *)
Lemma handle_used_as_receiver :
  handles_only_arguments (trace_of fresh_engine script O) = false /\
  In (lj_request (VObj 5%nat), Returns (VObj 6%nat))
     (trace_of fresh_engine script O) /\
  In (pair_coeff_request (VObj 6%nat), Returns (VObj 7%nat))
     (trace_of fresh_engine script O).
Proof. repeat apply conj; [reflexivity | vm_compute; in_list ..]. Qed.

(** C6, amended.  The script uses a handle in two ways only.  It passes
    it on, unchanged, as an argument of a later call: the unit cell to
    [create_lattice], the neighbour list to [pair.lj], the group to
    [langevin] and to [dump.gsd].  And on the pair potential, the value
    that [pair.lj] returned, it calls the engine's own
    [pair_coeff.set('A', 'A', epsilon=1.0, sigma=1.0)], at most once in
    any run and once in a run that completes.  No other request is a call
    on a value; every other handle is dropped. *)
Theorem handles_passed_or_configured (St : Type)
    (engine : request -> St -> outcome * St) (s : St) :
  (forall r, In r (requests (trace_of engine script s)) ->
             on_value r = true ->
             exists nl lj, In (lj_request nl, Returns lj) (trace_of engine script s) /\
                           r = pair_coeff_request lj) /\
  (List.length (filter on_value (requests (trace_of engine script s))) <= 1)%nat /\
  (completed (result_of engine script s) = true ->
   exists unitcell nl lj all,
     In (Call hoomd ["lattice"; "sc"] [] [("a", VLit 2.0)], Returns unitcell)
        (trace_of engine script s) /\
     In (Call hoomd ["md"; "nlist"; "cell"] [] [], Returns nl)
        (trace_of engine script s) /\
     In (lj_request nl, Returns lj) (trace_of engine script s) /\
     In (group_all_request, Returns all) (trace_of engine script s) /\
     requests (trace_of engine script s) = requests_with unitcell nl lj all /\
     filter on_value (requests (trace_of engine script s))
       = [pair_coeff_request lj]).
Proof.
  repeat apply conj.
  - run_script engine; cbn [requests map fst In];
      intros r Hin Hon;
      repeat (destruct Hin as [<- | Hin]; [try discriminate Hon |]);
      try contradiction;
      do 2 eexists; (split; [in_list | reflexivity]).
  - run_script engine; cbn; lia.
  - intros Hdone.
    destruct (completed_requests St engine s Hdone)
      as (unitcell & nl & lj & all & H1 & H2 & H3 & H4 & Hreq).
    exists unitcell, nl, lj, all. cbv zeta in Hreq.
    repeat apply conj; try assumption.
    rewrite Hreq. reflexivity.
Qed.

Lemma handles_passed_or_configured_witness :
  completed (result_of fresh_engine script O) = true /\
  exists unitcell nl lj all,
    In (Call hoomd ["lattice"; "sc"] [] [("a", VLit 2.0)], Returns unitcell)
       (trace_of fresh_engine script O) /\
    In (Call hoomd ["md"; "nlist"; "cell"] [] [], Returns nl)
       (trace_of fresh_engine script O) /\
    In (lj_request nl, Returns lj) (trace_of fresh_engine script O) /\
    In (group_all_request, Returns all) (trace_of fresh_engine script O) /\
    requests (trace_of fresh_engine script O) = requests_with unitcell nl lj all /\
    filter on_value (requests (trace_of fresh_engine script O))
      = [pair_coeff_request lj].
Proof.
  split; [reflexivity |].
  apply (handles_passed_or_configured nat fresh_engine O). reflexivity.
Defined.

(** C7.  Every request of the script goes to the [hoomd] package, and to
    a known place in it: the script imports [hoomd] and [hoomd.md] and
    nothing else, and each call is a call of one of eleven functions of
    the package or the call of [pair_coeff.set] on a value the package
    returned.  Each request is, argument for argument, one of the
    fourteen the script writes.  Of these only [hoomd.analyze.log] and
    [hoomd.dump.gsd] are given a file name, "log-output.log" and
    "trajectory.gsd": no other file is named, no request goes anywhere
    but to the package, and a run that completes names both files, once
    each. *)
Theorem only_two_output_files (St : Type)
    (engine : request -> St -> outcome * St) (s : St) :
  only_hoomd [] (trace_of engine script s) /\
  (forall f, In f (requested_files (requests (trace_of engine script s))) ->
             f = "log-output.log" \/ f = "trajectory.gsd") /\
  (completed (result_of engine script s) = true ->
   requested_files (requests (trace_of engine script s))
     = ["log-output.log"; "trajectory.gsd"]) /\
  forallb known_callee (requests (trace_of engine script s)) = true /\
  (forall ev, In ev (trace_of engine script s) ->
     returned ev = true \/ hoomd_call ["init"; "create_lattice"] (fst ev) = false ->
     In (fst ev) (script_requests (trace_of engine script s))) /\
  (forall r, In r (calls_to ["analyze"; "log"] (trace_of engine script s)) ->
             r = log_request) /\
  (forall r, In r (calls_to ["dump"; "gsd"] (trace_of engine script s)) ->
             r = gsd_request
                   (answer_to (hoomd_call ["group"; "all"])
                      (trace_of engine script s))).
Proof.
  repeat apply conj.
  - run_script engine; unfold hoomd; cbn [only_hoomd to_hoomd fst app];
      repeat apply conj;
      solve [ exact I | reflexivity | left; reflexivity | right; reflexivity
            | eexists; in_list ].
  - run_script engine; cbn; intros f Hf;
      repeat (destruct Hf as [<- | Hf]; [auto |]); contradiction.
  - run_completed engine. reflexivity.
  - run_script engine; reflexivity.
  - run_script engine; intros ev Hin Hok; cbn [In] in Hin;
      repeat (destruct Hin as [<- | Hin];
              [first [ unfold script_requests, requests_with; in_list
                     | exfalso; destruct Hok as [Hok | Hok]; discriminate Hok ] |]);
      contradiction.
  - run_script engine; cbn; intros r Hr;
      repeat (destruct Hr as [<- | Hr]); solve [reflexivity | contradiction].
  - run_script engine; cbn; intros r Hr;
      repeat (destruct Hr as [<- | Hr]); solve [reflexivity | contradiction].
Qed.

Lemma only_two_output_files_witness :
  completed (result_of fresh_engine script O) = true /\
  requested_files (requests (trace_of fresh_engine script O))
    = ["log-output.log"; "trajectory.gsd"].
Proof.
  split; [reflexivity |].
  pose proof (only_two_output_files nat fresh_engine O) as (_ & _ & Hfiles & _).
  apply Hfiles. reflexivity.
Defined.



(** C9.  In a run that completes, the period of the trajectory writer
    and the length of the run are written as floats, and are exactly the
    integers 2000 and 10000; the period of the log is the integer 100;
    the run is 100 log periods and 5 trajectory periods long, so its last
    step is a sampling step of both writers. *)
Theorem periods_divide_run_length (St : Type)
    (engine : request -> St -> outcome * St) (s : St) :
  completed (result_of engine script s) = true ->
  exists rlog rgsd rrun fperiod fsteps plog pgsd n,
    calls_to ["analyze"; "log"] (trace_of engine script s) = [rlog] /\
    calls_to ["dump"; "gsd"] (trace_of engine script s) = [rgsd] /\
    calls_to ["run"] (trace_of engine script s) = [rrun] /\
    kwarg "period" rlog = Some (VInt plog) /\
    kwarg "period" rgsd = Some (VFloat fperiod) /\
    posarg 0 rrun = Some (VFloat fsteps) /\
    fperiod = PyFloat.of_Q 2e3 /\ PyFloat.to_Z_exact fperiod = Some pgsd /\
    fsteps = PyFloat.of_Q 1e4 /\ PyFloat.to_Z_exact fsteps = Some n /\
    plog = 100 /\ pgsd = 2000 /\ n = 10000 /\
    n = 100 * plog /\ n = 5 * pgsd /\
    sampling_boundary n plog /\ sampling_boundary n pgsd.
Proof.
  run_completed engine.
  do 8 eexists.
  repeat apply conj; reflexivity.
Qed.

Lemma periods_divide_run_length_witness :
  completed (result_of fresh_engine script O) = true /\
  exists rlog rgsd rrun fperiod fsteps plog pgsd n,
    calls_to ["analyze"; "log"] (trace_of fresh_engine script O) = [rlog] /\
    calls_to ["dump"; "gsd"] (trace_of fresh_engine script O) = [rgsd] /\
    calls_to ["run"] (trace_of fresh_engine script O) = [rrun] /\
    kwarg "period" rlog = Some (VInt plog) /\
    kwarg "period" rgsd = Some (VFloat fperiod) /\
    posarg 0 rrun = Some (VFloat fsteps) /\
    fperiod = PyFloat.of_Q 2e3 /\ PyFloat.to_Z_exact fperiod = Some pgsd /\
    fsteps = PyFloat.of_Q 1e4 /\ PyFloat.to_Z_exact fsteps = Some n /\
    plog = 100 /\ pgsd = 2000 /\ n = 10000 /\
    n = 100 * plog /\ n = 5 * pgsd /\
    sampling_boundary n plog /\ sampling_boundary n pgsd.
Proof.
  split; [reflexivity |].
  apply (periods_divide_run_length nat fresh_engine O). reflexivity.
Defined.

(** * Further properties of the script *)

(** X1.  Whenever the script asks for the pair potential, it has called
    [hoomd.md.nlist.cell()] exactly once before, and the call is
    [hoomd.md.pair.lj(r_cut=2.5, nlist=nl)] with [nl] the value that call
    returned and the cutoff exactly 5/2; both go by keyword. *)
Theorem pair_potential_gets_the_neighbour_list (St : Type)
    (engine : request -> St -> outcome * St) (s : St) (r : request) :
  In r (calls_to ["md"; "pair"; "lj"] (trace_of engine script s)) ->
  exists nl,
    calls_to ["md"; "nlist"; "cell"] (trace_of engine script s) = [nlist_request] /\
    In (nlist_request, Returns nl) (trace_of engine script s) /\
    r = lj_request nl /\
    calls_to ["md"; "pair"; "lj"] (trace_of engine script s) = [r] /\
    posarg 0 r = None /\
    kwarg "nlist" r = Some nl /\
    exactly (5 # 2) (kwarg "r_cut" r).
Proof.
  run_script engine; cbn; intros Hin;
    repeat (destruct Hin as [<- | Hin]); try contradiction;
    eexists; (split; [reflexivity |]); (split; [in_list |]);
    repeat apply conj; reflexivity.
Qed.

Lemma pair_potential_gets_the_neighbour_list_witness :
  In (lj_request (VObj 5%nat))
     (calls_to ["md"; "pair"; "lj"] (trace_of fresh_engine script O)) /\
  exists nl,
    calls_to ["md"; "nlist"; "cell"] (trace_of fresh_engine script O) = [nlist_request] /\
    In (nlist_request, Returns nl) (trace_of fresh_engine script O) /\
    lj_request (VObj 5%nat) = lj_request nl /\
    calls_to ["md"; "pair"; "lj"] (trace_of fresh_engine script O)
      = [lj_request (VObj 5%nat)] /\
    posarg 0 (lj_request (VObj 5%nat)) = None /\
    kwarg "nlist" (lj_request (VObj 5%nat)) = Some nl /\
    exactly (5 # 2) (kwarg "r_cut" (lj_request (VObj 5%nat))).
Proof.
  assert (Hin : In (lj_request (VObj 5%nat))
                  (calls_to ["md"; "pair"; "lj"] (trace_of fresh_engine script O))).
  { vm_compute. left. reflexivity. }
  split; [exact Hin |].
  exact (pair_potential_gets_the_neighbour_list nat fresh_engine O _ Hin).
Defined.

(** X2.  Whenever [hoomd.init.create_lattice] has returned, the script
    had called [hoomd.lattice.sc(a=2.0)] exactly once before, with the
    lattice constant exactly 2, and the call that returned is
    [hoomd.init.create_lattice(unitcell=u, n=5)] with [u] the value the
    unit cell call returned. *)
Theorem lattice_gets_the_unit_cell (St : Type)
    (engine : request -> St -> outcome * St) (s : St)
    (r : request) (v : value) :
  In (r, Returns v) (trace_of engine script s) ->
  hoomd_call ["init"; "create_lattice"] r = true ->
  exists unitcell,
    calls_to ["lattice"; "sc"] (trace_of engine script s) = [sc_request] /\
    In (sc_request, Returns unitcell) (trace_of engine script s) /\
    unitcell = answer_to (hoomd_call ["lattice"; "sc"]) (trace_of engine script s) /\
    exactly (2 # 1) (kwarg "a" sc_request) /\
    r = lattice_request unitcell /\
    calls_to ["init"; "create_lattice"] (trace_of engine script s) = [r] /\
    posarg 0 r = None /\
    kwarg "unitcell" r = Some unitcell /\
    kwarg "n" r = Some (VInt 5).
Proof.
  run_script engine; cbn [In]; intros Hin Hcall;
    repeat (destruct Hin as [Hin | Hin];
            [try discriminate Hin; injection Hin as <- <-;
             try discriminate Hcall |]);
    try contradiction;
    eexists; (split; [reflexivity |]); (split; [in_list |]);
    repeat apply conj; reflexivity.
Qed.

Lemma lattice_gets_the_unit_cell_witness :
  In (lattice_request (VObj 3%nat), Returns (VObj 4%nat))
     (trace_of fresh_engine script O) /\
  hoomd_call ["init"; "create_lattice"] (lattice_request (VObj 3%nat)) = true /\
  exists unitcell,
    calls_to ["lattice"; "sc"] (trace_of fresh_engine script O) = [sc_request] /\
    In (sc_request, Returns unitcell) (trace_of fresh_engine script O) /\
    unitcell = answer_to (hoomd_call ["lattice"; "sc"])
                 (trace_of fresh_engine script O) /\
    exactly (2 # 1) (kwarg "a" sc_request) /\
    lattice_request (VObj 3%nat) = lattice_request unitcell /\
    calls_to ["init"; "create_lattice"] (trace_of fresh_engine script O)
      = [lattice_request (VObj 3%nat)] /\
    posarg 0 (lattice_request (VObj 3%nat)) = None /\
    kwarg "unitcell" (lattice_request (VObj 3%nat)) = Some unitcell /\
    kwarg "n" (lattice_request (VObj 3%nat)) = Some (VInt 5).
Proof.
  assert (Hin : In (lattice_request (VObj 3%nat), Returns (VObj 4%nat))
                   (trace_of fresh_engine script O)).
  { vm_compute. in_list. }
  split; [exact Hin |]. split; [reflexivity |].
  exact (lattice_gets_the_unit_cell nat fresh_engine O _ _ Hin eq_refl).
Defined.



(** X4.  The run is never asked for on a simulation that is set up in
    part only.  Whenever the script calls [hoomd.run], in a run that
    completes or in one where [hoomd.run] itself fails, all thirteen
    requests before it have been sent and have returned: among them the
    lattice, the pair coefficients, the thermostat and both writers. *)
Theorem run_only_when_configured (St : Type)
    (engine : request -> St -> outcome * St) (s : St) :
  calls_to ["run"] (trace_of engine script s) <> [] ->
  exists unitcell nl lj all,
    requests (trace_of engine script s) = requests_with unitcell nl lj all /\
    List.length (trace_of engine script s) = 14%nat /\
    forallb returned (firstn 13 (trace_of engine script s)) = true /\
    (exists v, In (lattice_request unitcell, Returns v) (trace_of engine script s)) /\
    (exists v, In (pair_coeff_request lj, Returns v) (trace_of engine script s)) /\
    (exists v, In (langevin_request all, Returns v) (trace_of engine script s)) /\
    (exists v, In (log_request, Returns v) (trace_of engine script s)) /\
    (exists v, In (gsd_request all, Returns v) (trace_of engine script s)).
Proof.
  run_script engine; cbn; intros Hrun; try (exfalso; apply Hrun; reflexivity);
    do 4 eexists; (split; [reflexivity |]);
    repeat apply conj; try reflexivity; eexists; in_list.
Qed.

Lemma run_only_when_configured_witness :
  result_of (rejecting_engine ["run"] (Exn "RuntimeError" "run failed")) script O
    = Raises (Exn "RuntimeError" "run failed") /\
  exists unitcell nl lj all,
    requests (trace_of (rejecting_engine ["run"] (Exn "RuntimeError" "run failed"))
                script O)
      = requests_with unitcell nl lj all /\
    List.length (trace_of (rejecting_engine ["run"] (Exn "RuntimeError" "run failed"))
                   script O) = 14%nat /\
    forallb returned
      (firstn 13 (trace_of (rejecting_engine ["run"] (Exn "RuntimeError" "run failed"))
                    script O)) = true /\
    (exists v, In (lattice_request unitcell, Returns v)
                  (trace_of (rejecting_engine ["run"] (Exn "RuntimeError" "run failed"))
                     script O)) /\
    (exists v, In (pair_coeff_request lj, Returns v)
                  (trace_of (rejecting_engine ["run"] (Exn "RuntimeError" "run failed"))
                     script O)) /\
    (exists v, In (langevin_request all, Returns v)
                  (trace_of (rejecting_engine ["run"] (Exn "RuntimeError" "run failed"))
                     script O)) /\
    (exists v, In (log_request, Returns v)
                  (trace_of (rejecting_engine ["run"] (Exn "RuntimeError" "run failed"))
                     script O)) /\
    (exists v, In (gsd_request all, Returns v)
                  (trace_of (rejecting_engine ["run"] (Exn "RuntimeError" "run failed"))
                     script O)).
Proof.
  split; [reflexivity |].
  apply (run_only_when_configured nat
           (rejecting_engine ["run"] (Exn "RuntimeError" "run failed")) O).
  vm_compute. discriminate.
Defined.

(** X5.  Whatever the engine answers and wherever it fails, the requests
    that returned are the first so many of the script's fourteen, at the
    answers of that very run, and at most one request, the last, did not
    return.  So the script never gets an answer to a request out of
    order, and an answer changes what it sends only by standing where
    the script passes it on. *)
Theorem requests_follow_the_script (St : Type)
    (engine : request -> St -> outcome * St) (s : St) :
  returned_requests (trace_of engine script s)
    = firstn (List.length (returned_requests (trace_of engine script s)))
             (script_requests (trace_of engine script s)) /\
  filter returned (trace_of engine script s)
    = removelast (trace_of engine script s)
      ++ (if completed (result_of engine script s)
          then match final_event (trace_of engine script s) with
               | Some ev => [ev]
               | None => []
               end
          else []) /\
  (1 <= List.length (trace_of engine script s) <= 14)%nat /\
  (completed (result_of engine script s) = true <->
   List.length (returned_requests (trace_of engine script s)) = 14%nat).
Proof.
  run_script engine; repeat apply conj;
    solve [ reflexivity | cbn; lia
          | cbn; split; intros H; first [discriminate H | reflexivity] ].
Qed.

(** X6.  The first call of every run that makes a call is
    [hoomd.context.initialize()], and it is made once both imports have
    returned, the package before its submodule. *)
Theorem context_is_initialized_first (St : Type)
    (engine : request -> St -> outcome * St) (s : St) (c : request) :
  hd_error (calls (trace_of engine script s)) = Some c ->
  c = init_request /\
  nth_error (requests (trace_of engine script s)) 2 = Some init_request /\
  exists v1 v2,
    firstn 2 (trace_of engine script s)
      = [(Import "hoomd", Returns v1); (Import "hoomd.md", Returns v2)].
Proof.
  run_script engine; cbn; intros Hc; try discriminate Hc;
    injection Hc as <-;
    (split; [reflexivity |]); (split; [reflexivity |]);
    do 2 eexists; reflexivity.
Qed.

Lemma context_is_initialized_first_witness :
  hd_error (calls (trace_of fresh_engine script O)) = Some init_request /\
  init_request = init_request /\
  nth_error (requests (trace_of fresh_engine script O)) 2 = Some init_request /\
  exists v1 v2,
    firstn 2 (trace_of fresh_engine script O)
      = [(Import "hoomd", Returns v1); (Import "hoomd.md", Returns v2)].
Proof.
  split; [reflexivity |].
  apply (context_is_initialized_first nat fresh_engine O). reflexivity.
Defined.

(** X7.  When an import fails, of the package or of its submodule, the
    script makes no call at all and names no file: the failure is its
    outcome and at most the two imports were attempted. *)
Theorem failed_import_stops_everything (St : Type)
    (engine : request -> St -> outcome * St) (s : St) (m : string) (e : exn) :
  In (Import m, Raises e) (trace_of engine script s) ->
  result_of engine script s = Raises e /\
  calls (trace_of engine script s) = [] /\
  requested_files (requests (trace_of engine script s)) = [] /\
  (List.length (trace_of engine script s) <= 2)%nat /\
  (m = "hoomd" \/ m = "hoomd.md").
Proof.
  run_script engine; cbn [In]; intros Hin;
    repeat (destruct Hin as [Hin | Hin];
            [try discriminate Hin; injection Hin as <- <- |]);
    try contradiction;
    repeat apply conj; try reflexivity; try (cbn; lia);
    solve [left; reflexivity | right; reflexivity].
Qed.

Lemma failed_import_stops_everything_witness :
  In (Import "hoomd", Raises (Exn "ModuleNotFoundError" "No module named 'hoomd'"))
     (trace_of no_hoomd_engine script O) /\
  result_of no_hoomd_engine script O
    = Raises (Exn "ModuleNotFoundError" "No module named 'hoomd'") /\
  calls (trace_of no_hoomd_engine script O) = [] /\
  requested_files (requests (trace_of no_hoomd_engine script O)) = [] /\
  (List.length (trace_of no_hoomd_engine script O) <= 2)%nat /\
  ("hoomd" = "hoomd" \/ "hoomd" = "hoomd.md").
Proof.
  assert (Hin : In (Import "hoomd",
                    Raises (Exn "ModuleNotFoundError" "No module named 'hoomd'"))
                   (trace_of no_hoomd_engine script O)).
  { left. reflexivity. }
  split; [exact Hin |].
  exact (failed_import_stops_everything nat no_hoomd_engine O _ _ Hin).
Defined.
